(** * The Metropolis-Hastings cookbook of GenJAX

    A shallow embedding of [docs/cookbook/inactive/inference/mcmc.ipynb]:
    the kernel [metropolis_hastings_move], the drift proposal [prop], the
    driver [mh] (a [jax.lax.scan] over per-step keys), [custom_mh] and the
    entry point [run_inference].

    Conventions.
    - Weights and choice values are IEEE binary32 numbers (JAX's default
      dtype), taken from the [spec_float] formalisation of the standard
      library: [-], [+] and [<] of the notebook are [SFsub], [SFadd] and
      [SFltb] at precision 24.
    - A PRNG key is an abstract value; [jax.random.split], the uniform
      sampler, [jnp.log] and the normal distribution are the interface
      [Jax] the notebook imports.
    - Every call that is handed a key is recorded in an event log (a writer
      monad), so that which key reaches which consumer is a property of the
      embedded code and not of a comment. *)

From Stdlib Require Import ZArith Floats.SpecFloat.
From stdpp Require Import gmap strings list fin_maps.

Set Default Proof Using "Type".

(** ** Binary32 arithmetic *)

Module F32.
Definition prec : Z := 24.
Definition emax : Z := 128.

Definition add : spec_float → spec_float → spec_float := SFadd prec emax.
Definition sub : spec_float → spec_float → spec_float := SFsub prec emax.
Definition mul : spec_float → spec_float → spec_float := SFmul prec emax.
Definition div : spec_float → spec_float → spec_float := SFdiv prec emax.
Definition ltb : spec_float → spec_float → bool := SFltb.
Definition eqb : spec_float → spec_float → bool := SFeqb.

(** [scaled m e] is the binary32 number nearest to [m * 2^e]. *)
Definition scaled (m e : Z) : spec_float := binary_normalize prec emax m e false.

Definition zero : spec_float := S754_zero false.
Definition one : spec_float := scaled 1 0.
Definition half : spec_float := scaled 1 (-1).
Definition quarter : spec_float := scaled 1 (-2).
Definition two : spec_float := scaled 2 0.
Definition four : spec_float := scaled 4 0.
Definition five : spec_float := scaled 5 0.
Definition pos_inf : spec_float := S754_infinity false.
Definition neg_inf : spec_float := S754_infinity true.
Definition nan : spec_float := S754_nan.
End F32.

Abbreviation float32 := spec_float (only parsing).

(** ** The imported JAX / GenJAX primitives *)

Class Jax := {
  (** PRNG keys, [jax.random.key]. *)
  Key : Type;
  (** [random_split_at key num i] is [jax.random.split(key, num)[i]]. *)
  random_split_at : Key → nat → nat → Key;
  (** [jax.random.uniform(key)], a draw in the unit interval. *)
  random_uniform : Key → float32;
  (** [jnp.log]. *)
  jnp_log : float32 → float32;
  (** [genjax.normal]: sampler and log density, arguments (mean, std). *)
  normal_sample : Key → float32 → float32 → float32;
  normal_logpdf : float32 → float32 → float32 → float32;
}.

(** ** Data model *)

Abbreviation Address := string (only parsing).
Abbreviation Value := float32 (only parsing).
Abbreviation Weight := float32 (only parsing).
Abbreviation ChoiceMap := (gmap string spec_float) (only parsing).
Abbreviation Args := (list spec_float) (only parsing).

(** Modelled from the spec: the [Trace] of the library core, "the arguments
    used, the realized random-choice assignment, the return value, and a
    scalar log-score", read through [get_args], [get_choices],
    [get_retval] and [get_score]. *)
Record Trace := mkTrace {
  get_args : Args;
  get_choices : ChoiceMap;
  get_retval : Value;
  get_score : Weight;
}.

(** Modelled from the spec: [Diff] of
    [genjax._src.core.compiler.interpreters.incremental], of which the
    kernel uses [Diff.no_change] only ("derive the model's argument-change
    descriptor as no change"): every argument is tagged as unchanged. *)
Inductive ChangeTangent := NoChange | UnknownChange.

Record Diff := mkDiff { primal : Value; tangent : ChangeTangent }.

Definition Diff_no_change (model_args : Args) : list Diff :=
  map (λ v, mkDiff v NoChange) model_args.

(** [obs = C["y"].set(4.0)] and [model_args = (5.0,)]. *)
Definition obs : ChoiceMap := {[ "y" := F32.four ]}.
Definition model_args : Args := [F32.five].

(** ** Key consumption log *)

Inductive Consumer := ByPropose | ByUpdate | ByUniform | ByImportance.

Inductive Event `{Jax} :=
  | EvSplit (key : Key) (num : nat)
  | EvUse (who : Consumer) (key : Key).

Definition Logged `{Jax} (A : Type) : Type := A * list Event.

Definition value `{Jax} {A} (m : Logged A) : A := m.1.
Definition events `{Jax} {A} (m : Logged A) : list Event := m.2.

#[global] Instance Logged_ret `{Jax} : MRet Logged := λ A a, (a, []).
#[global] Instance Logged_bind `{Jax} : MBind Logged :=
  λ A B f m, let r := f m.1 in (r.1, m.2 ++ r.2).

Definition tell `{Jax} {A} (e : Event) (a : A) : Logged A := (a, [e]).

(** Modelled from the spec: the methods of a generative function that the
    notebook calls, with the signatures of the interface list
    ([importance] is the initialisation under constraints).  A model is
    used through [importance] and [update], a proposal through [propose]
    and [assess]; in [propose] and [assess] the argument tuple
    [(trace, *proposal_args)] is the pair of its head and its rest. *)
Record Model `{Jax} := mkModel {
  importance : Key → ChoiceMap → Args → Trace * Weight;
  update : Key → Trace → ChoiceMap → list Diff → Trace * Weight * Diff * ChoiceMap;
}.

Record Proposal `{Jax} := mkProposal {
  propose : Key → Trace * Args → ChoiceMap * Weight * Value;
  assess : ChoiceMap → Trace * Args → Weight * Value;
}.

(** The carry of the scan: (trace, model, proposal, proposal_args, observations). *)
Abbreviation MHArgs := (Trace * Model * Proposal * list spec_float * gmap string spec_float)%type
  (only parsing).

Section Kernel.
Context `{Jax}.

(** [jax.random.split(key, num)]: an array of [num] keys. *)
Definition jax_random_split (key : Key) (num : nat) : list Key :=
  map (random_split_at key num) (seq 0 num).

(** [key, subkey = jax.random.split(key)]. *)
Definition split2 (key : Key) : Logged (Key * Key) :=
  tell (EvSplit key 2) (random_split_at key 2 0, random_split_at key 2 1).

(** [key, subkey1, subkey2 = jax.random.split(key, 3)]. *)
Definition split3 (key : Key) : Logged (Key * Key * Key) :=
  tell (EvSplit key 3)
    (random_split_at key 3 0, random_split_at key 3 1, random_split_at key 3 2).

Definition split_n (key : Key) (num : nat) : Logged (list Key) :=
  tell (EvSplit key num) (jax_random_split key num).

Definition call_propose (proposal : Proposal) key args :=
  tell (EvUse ByPropose key) (propose proposal key args).
Definition call_update (model : Model) key trace choices argdiffs :=
  tell (EvUse ByUpdate key) (update model key trace choices argdiffs).
Definition call_importance (model : Model) key obs args :=
  tell (EvUse ByImportance key) (importance model key obs args).
Definition call_uniform key :=
  tell (EvUse ByUniform key) (random_uniform key).

(** [jax.lax.cond(pred, true_fun, false_fun)]. *)
Definition lax_cond {A} (pred : bool) (true_fun false_fun : unit → A) : A :=
  if pred then true_fun () else false_fun ().

Definition metropolis_hastings_move (mh_args : MHArgs) (key : Key)
  : Logged (MHArgs * Trace) :=
  let '(trace, model, proposal, proposal_args, observations) := mh_args in
  let model_args := get_args trace in
  let argdiffs := Diff_no_change model_args in
  let proposal_args_forward := (trace, proposal_args) in
  '(key, subkey) ← split2 key;
  '(fwd_choices, fwd_weight, _) ← call_propose proposal key proposal_args_forward;
  '(new_trace, weight, _, discard) ← call_update model subkey trace fwd_choices argdiffs;
  let proposal_args_backward := (new_trace, proposal_args) in
  let '(bwd_weight, _) := assess proposal discard proposal_args_backward in
  let α := F32.add (F32.sub weight fwd_weight) bwd_weight in
  '(key, subkey) ← split2 key;
  u ← call_uniform subkey;
  let ret_fun := lax_cond (F32.ltb (jnp_log u) α) (λ _, new_trace) (λ _, trace) in
  mret ((ret_fun, model, proposal, proposal_args, observations), ret_fun).

(** [chm[addr]].  The address structure of a choice map is static under
    JAX: a missing address is rejected when the program is traced, before
    any step runs; the total model reads NaN there. *)
Definition chm_get (chm : ChoiceMap) (addr : Address) : Value :=
  default F32.nan (chm !! addr).

(** Modelled from the spec: the [@gen] decorator of the library core, which
    makes the body of [prop] a generative function: [propose] runs the body
    and returns the sampled choice assignment, its log density under the
    proposal and the return value; [assess] returns the log density of
    given choices and the return value.  The body reads ["a"] from the
    trace and makes the single random choice ["a"], a normal draw of
    standard deviation 1 around it. *)
Definition prop : Proposal := {|
  propose key args :=
    let '(tr, _) := args in
    let orig_a := chm_get (get_choices tr) "a" in
    let a := normal_sample key orig_a F32.one in
    ({[ "a" := a ]}, normal_logpdf a orig_a F32.one, a);
  assess choices args :=
    let '(tr, _) := args in
    let orig_a := chm_get (get_choices tr) "a" in
    let a := chm_get choices "a" in
    (normal_logpdf a orig_a F32.one, a)
|}.

(** [jax.lax.scan(f, init, xs)]: thread the carry through [xs] in order
    and stack the per-step outputs. *)
Fixpoint lax_scan {C X Y} (f : C → X → Logged (C * Y)) (init : C) (xs : list X)
  : Logged (C * list Y) :=
  match xs with
  | [] => mret (init, [])
  | x :: xs =>
      '(carry, y) ← f init x;
      '(last_carry, ys) ← lax_scan f carry xs;
      mret (last_carry, y :: ys)
  end.

Definition mh (trace : Trace) (model : Model) (proposal : Proposal)
    (proposal_args : Args) (observations : ChoiceMap) (key : Key)
    (num_updates : nat) : Logged (Trace * list Trace) :=
  mh_keys ← split_n key num_updates;
  '(last_carry, mh_chain) ←
    lax_scan metropolis_hastings_move
      (trace, model, proposal, proposal_args, observations) mh_keys;
  let '(last_trace, _, _, _, _) := last_carry in
  mret (last_trace, mh_chain).

Definition custom_mh (trace : Trace) (model : Model) (observations : ChoiceMap)
    (key : Key) (num_updates : nat) : Logged (Trace * list Trace) :=
  mh trace model prop [] observations key num_updates.

Definition run_inference (model : Model) (model_args : Args) (obs : ChoiceMap)
    (key : Key) (num_samples : nat) : Logged (Trace * list Trace) :=
  '(key, subkey1, subkey2) ← split3 key;
  '(tr, _) ← call_importance model subkey1 obs model_args;
  '(rejuvenated_trace, mh_chain) ← custom_mh tr model obs subkey2 num_samples;
  mret (rejuvenated_trace, mh_chain).

End Kernel.

(** ** Reading the event log *)

Section Log.
Context `{Jax}.


(** The keys handed to a sampler, with the sampler. *)
Definition consumed_keys (log : list Event) : list (Consumer * Key) :=
  log ≫= λ e, match e with
              | EvSplit _ _ => []
              | EvUse who key => [(who, key)]
              end.


(** The current-trace slot of a carry, [carry[0]]. *)
Definition current_trace (carry : MHArgs) : Trace :=
  let '(trace, _, _, _, _) := carry in trace.

(** The carry after [i] steps over [keys], counted from the initial carry. *)
Fixpoint chain_state (carry : MHArgs) (keys : list Key) (i : nat) : MHArgs :=
  match i, keys with
  | S i, key :: keys =>
      chain_state (value (metropolis_hastings_move carry key)).1 keys i
  | _, _ => carry
  end.

(** The record emitted by step [i] (from 0) of a chain over [keys]: the
    kernel applied to the carry left by the steps before it; there is
    none past the last key. *)
Definition chain_record (carry : MHArgs) (keys : list Key) (i : nat) : option Trace :=
  key ← keys !! i;
  Some (value (metropolis_hastings_move (chain_state carry keys i) key)).2.

End Log.

(** ** Vocabulary of the statements *)

(** Two models that answer every [update] alike, two proposals that answer
    every call alike; as records of functions they need not be equal. *)
Definition same_update `{Jax} (m1 m2 : Model) : Prop :=
  ∀ key trace edits argdiffs,
    update m1 key trace edits argdiffs = update m2 key trace edits argdiffs.

Definition Proposal_equiv `{Jax} (p1 p2 : Proposal) : Prop :=
  (∀ key args, propose p1 key args = propose p2 key args) ∧
  (∀ choices args, assess p1 choices args = assess p2 choices args).

(** The keys a log hands to the sampler [who]. *)
Definition uses_of `{Jax} (who : Consumer) (log : list Event) : list Key :=
  log ≫= λ e, match e with
              | EvUse ByPropose key => if who is ByPropose then [key] else []
              | EvUse ByUpdate key => if who is ByUpdate then [key] else []
              | EvUse ByUniform key => if who is ByUniform then [key] else []
              | EvUse ByImportance key => if who is ByImportance then [key] else []
              | EvSplit _ _ => []
              end.

(** Every observed address reads the same in [before] and [after]. *)
Definition observed_unchanged (observations : ChoiceMap) (before after : Trace) : Prop :=
  ∀ addr, is_Some (observations !! addr) →
          get_choices after !! addr = get_choices before !! addr.

(** The model's update leaves every address outside the edit as it was. *)
Definition update_frames `{Jax} (model : Model) : Prop :=
  ∀ key trace edits argdiffs addr,
    edits !! addr = None →
    get_choices (update model key trace edits argdiffs).1.1.1 !! addr
      = get_choices trace !! addr.



(** The sampler calls of one step on the step key [key], in order. *)
Definition step_consumers `{Jax} (key : Key) : list (Consumer * Key) :=
  [(ByPropose, random_split_at key 2 0);
   (ByUpdate, random_split_at key 2 1);
   (ByUniform, random_split_at (random_split_at key 2 0) 2 1)].


(** The model's update puts every value of the edit into the new trace. *)
Definition update_writes `{Jax} (model : Model) : Prop :=
  ∀ key trace edits argdiffs addr v,
    edits !! addr = Some v →
    get_choices (update model key trace edits argdiffs).1.1.1 !! addr = Some v.

(** Every observed address holds its observed value in [t]. *)
Definition satisfies (observations : ChoiceMap) (t : Trace) : Prop :=
  ∀ addr v, observations !! addr = Some v → get_choices t !! addr = Some v.

(** A weight combination that cannot be accepted: the model weight is minus
    infinity, the forward weight plus infinity, the backward weight minus
    infinity, or one of the three is not a number. *)
Definition degenerate (w fw bw : Weight) : Prop :=
  w = F32.neg_inf ∨ fw = F32.pos_inf ∨ bw = F32.neg_inf ∨
  w = F32.nan ∨ fw = F32.nan ∨ bw = F32.nan.

(** ** Deterministic test doubles

    Stand-ins for the library, in the manner of the stubs a unit test of the
    kernel would use: they fix the forward, backward and model weights and
    the uniform draw exactly. *)

Module Stub.

(** Keys are derivation paths from a root seed: splitting never collides. *)
Inductive PathKey :=
  | Root (seed : nat)
  | Child (parent : PathKey) (num i : nat).

(** 0.5 * ln (2 * pi) and ln 2, rounded to binary32. *)
Definition half_ln_2pi : float32 := F32.scaled 15417230 (-24).
Definition ln_2 : float32 := F32.scaled 11629080 (-24).

(** [jnp.log], correctly rounded at the few points the doubles draw. *)
Definition log_table (x : float32) : float32 :=
  if F32.eqb x F32.one then F32.zero
  else if F32.eqb x F32.half then SFopp ln_2
  else if F32.eqb x F32.quarter then SFopp (F32.add ln_2 ln_2)
  else if F32.eqb x F32.zero then F32.neg_inf
  else F32.nan.

(** Log density of the normal distribution, for standard deviations whose
    logarithm [log_table] knows. *)
Definition logpdf (x mu sigma : float32) : float32 :=
  let z := F32.div (F32.sub x mu) sigma in
  F32.sub (F32.sub (SFopp (F32.mul F32.half (F32.mul z z))) (log_table sigma))
    half_ln_2pi.

(** A library whose uniform sampler always draws [u] and whose standard
    normal sampler always draws [z]. *)
Definition jax (u z : float32) : Jax := {|
  Key := PathKey;
  random_split_at := Child;
  random_uniform := λ _, u;
  jnp_log := log_table;
  normal_sample := λ _ mu sigma, F32.add mu (F32.mul sigma z);
  normal_logpdf := logpdf
|}.

(** A proposal that always proposes [choices], with forward weight [fw]
    and backward weight [bw]. *)
Definition proposal `{Jax} (choices : ChoiceMap) (fw bw : Weight) : Proposal := {|
  propose := λ _ _, (choices, fw, F32.zero);
  assess := λ _ _, (bw, F32.zero)
|}.

(** Modelled from the spec: the update of a model whose control flow does
    not depend on its choices.  The edit overwrites the addresses it
    names, every other choice is kept, and the discard holds "the prior
    values at the addresses that were overwritten"; the incremental
    weight is fixed to [w], the weight of the initial trace to [iw]. *)
Definition model `{Jax} (w iw : Weight) : Model := {|
  importance := λ _ obs args,
    let choices := obs ∪ {[ "a" := F32.one; "b" := F32.zero; "y" := F32.five ]} in
    (mkTrace args choices (chm_get choices "y") F32.zero, iw);
  update := λ _ tr edits _,
    let choices := edits ∪ get_choices tr in
    (mkTrace (get_args tr) choices (chm_get choices "y") (F32.add (get_score tr) w),
     w, mkDiff (chm_get choices "y") NoChange, get_choices tr ∩ edits)
|}.

(** A trace of the notebook's model at [model_args], consistent with [obs]. *)
Definition trace0 : Trace :=
  mkTrace model_args {[ "a" := F32.one; "b" := F32.zero; "y" := F32.four ]}
    F32.four F32.zero.

(** The library of the examples: the uniform sampler draws 0.5, the
    standard normal sampler draws 1. *)
Definition lib : Jax := jax F32.half F32.one.

End Stub.

(** ** The kernel *)

Section KernelFacts.
Context `{Jax}.
Implicit Types (trace : Trace) (model : Model) (proposal : Proposal).
Implicit Types (proposal_args : Args) (observations : ChoiceMap) (key : Key).

Lemma jax_random_split_2 key :
  jax_random_split key 2 = [(value (split2 key)).1; (value (split2 key)).2].
Proof. reflexivity. Qed.

Lemma jax_random_split_3 key :
  jax_random_split key 3 =
    [(value (split3 key)).1.1; (value (split3 key)).1.2; (value (split3 key)).2].
Proof. reflexivity. Qed.

Lemma length_jax_random_split key num : length (jax_random_split key num) = num.
Proof. unfold jax_random_split. by rewrite length_map, length_seq. Qed.

(** One step, with every intermediate value named as in the notebook. *)
Lemma mh_move_eq trace model proposal proposal_args observations key :
  let key1 := random_split_at key 2 0 in
  let subkey1 := random_split_at key 2 1 in
  let subkey2 := random_split_at key1 2 1 in
  let fwd := propose proposal key1 (trace, proposal_args) in
  let upd := update model subkey1 trace fwd.1.1 (Diff_no_change (get_args trace)) in
  let new_trace := upd.1.1.1 in
  let bwd := assess proposal upd.2 (new_trace, proposal_args) in
  let α := F32.add (F32.sub upd.1.1.2 fwd.1.2) bwd.1 in
  let ret_fun :=
    if F32.ltb (jnp_log (random_uniform subkey2)) α then new_trace else trace in
  metropolis_hastings_move (trace, model, proposal, proposal_args, observations) key =
    ((ret_fun, model, proposal, proposal_args, observations), ret_fun,
     [EvSplit key 2; EvUse ByPropose key1; EvUse ByUpdate subkey1;
      EvSplit key1 2; EvUse ByUniform subkey2]).
Proof.
  cbv zeta. unfold metropolis_hastings_move, call_propose, call_update.
  cbn.
  destruct (propose _ _ _) as [[fwd_choices fwd_weight] r]; cbn.
  destruct (update _ _ _ _ _) as [[[new_trace weight] rd] discard]; cbn.
  destruct (assess _ _ _) as [bwd_weight r']; cbn.
  reflexivity.
Qed.

(** What a step returns, whatever it decides. *)
Lemma mh_move_value trace model proposal proposal_args observations key :
  ∃ ret_fun,
    value (metropolis_hastings_move
             (trace, model, proposal, proposal_args, observations) key)
    = ((ret_fun, model, proposal, proposal_args, observations), ret_fun).
Proof. rewrite mh_move_eq. cbv zeta. eexists. reflexivity. Qed.



(** C6.  The carry returned by a step is the input carry with the returned
    trace in the current-trace slot; model, proposal, proposal arguments
    and observations are passed on as they came, and the record of the step
    is that same trace. *)
Theorem mh_move_frame trace model proposal proposal_args observations key :
  ∃ ret_fun,
    value (metropolis_hastings_move
             (trace, model, proposal, proposal_args, observations) key)
    = ((ret_fun, model, proposal, proposal_args, observations), ret_fun).
Proof. apply mh_move_value. Qed.

(** C8.  Two carries that differ in the observations only give the same
    record, the same new current trace and the same key events: the kernel
    passes the observations on without reading them. *)
Theorem mh_move_ignores_observations trace model proposal proposal_args
    observations observations' key :
  let r := metropolis_hastings_move
             (trace, model, proposal, proposal_args, observations) key in
  let r' := metropolis_hastings_move
              (trace, model, proposal, proposal_args, observations') key in
  (value r).2 = (value r').2 ∧
  current_trace (value r).1 = current_trace (value r').1 ∧
  events r = events r'.
Proof. cbv zeta. rewrite !mh_move_eq. cbv zeta. done. Qed.


End KernelFacts.

(** ** The driver *)

Section Driver.
Context `{Jax}.
Implicit Types (trace : Trace) (model : Model) (proposal : Proposal).
Implicit Types (proposal_args : Args) (observations : ChoiceMap) (key : Key).
Implicit Types (carry : MHArgs) (keys : list Key).

Lemma lax_scan_cons {C X Y} (f : C → X → Logged (C * Y)) init x xs :
  lax_scan f init (x :: xs) =
    let r := f init x in
    let r' := lax_scan f (value r).1 xs in
    (((value r').1, (value r).2 :: (value r').2), events r ++ events r').
Proof.
  cbn [lax_scan]. unfold mbind, Logged_bind, mret, Logged_ret, value, events.
  destruct (f init x) as [[c y] log]. cbn.
  destruct (lax_scan f c xs) as [[c' ys] log']. cbn.
  by rewrite app_nil_r.
Qed.

Lemma mh_eq trace model proposal proposal_args observations key num_updates :
  mh trace model proposal proposal_args observations key num_updates =
    let r := lax_scan metropolis_hastings_move
               (trace, model, proposal, proposal_args, observations)
               (jax_random_split key num_updates) in
    ((current_trace (value r).1, (value r).2), EvSplit key num_updates :: events r).
Proof.
  unfold mh, split_n, tell, mbind, Logged_bind, mret, Logged_ret, value, events.
  cbn. destruct (lax_scan _ _ _) as [[[[[[t m] p] pa] o] ys] log]. cbn.
  by rewrite app_nil_r.
Qed.

(** The scan leaves the carry [chain_state] describes and emits the records
    [chain_record] describes, in order. *)
Lemma scan_kernel_state carry keys :
  (value (lax_scan metropolis_hastings_move carry keys)).1
    = chain_state carry keys (length keys).
Proof.
  revert carry. induction keys as [|key keys IH]; intros carry; [done|].
  rewrite lax_scan_cons. cbn. apply IH.
Qed.

Lemma scan_kernel_records carry keys i :
  (value (lax_scan metropolis_hastings_move carry keys)).2 !! i
    = chain_record carry keys i.
Proof.
  revert carry i. induction keys as [|key keys IH]; intros carry i; [done|].
  rewrite lax_scan_cons. destruct i as [|i]; [done|]. cbn. apply IH.
Qed.

Lemma scan_kernel_length carry keys :
  length (value (lax_scan metropolis_hastings_move carry keys)).2 = length keys.
Proof.
  revert carry. induction keys as [|key keys IH]; intros carry; [done|].
  rewrite lax_scan_cons. cbn. by rewrite IH.
Qed.

(** The trace left in the carry is the last record, or the initial trace
    when no step ran. *)
Lemma scan_kernel_last carry keys :
  current_trace (value (lax_scan metropolis_hastings_move carry keys)).1
    = default (current_trace carry)
        (last (value (lax_scan metropolis_hastings_move carry keys)).2).
Proof.
  revert carry. induction keys as [|key keys IH]; intros carry; [done|].
  rewrite lax_scan_cons. cbn. rewrite IH, last_cons.
  destruct carry as [[[[trace model] proposal] proposal_args] observations].
  destruct (mh_move_value trace model proposal proposal_args observations key)
    as [ret_fun ->].
  cbn. by destruct (last _).
Qed.

(** C2.  Over the keys [jax.random.split(key, N)], [mh] emits exactly [N]
    records; record [i] is what the kernel returns on the carry left by the
    steps before it (the initial carry for the first); the returned trace
    is the current trace of the last carry, which is the last record, or
    the initial trace when [N = 0], where no record is emitted. *)
Theorem mh_chain_records trace model proposal proposal_args observations key N :
  let init := (trace, model, proposal, proposal_args, observations) in
  let mh_keys := jax_random_split key N in
  let r := value (mh trace model proposal proposal_args observations key N) in
  length r.2 = N ∧
  (∀ i, r.2 !! i = chain_record init mh_keys i) ∧
  r.1 = current_trace (chain_state init mh_keys N) ∧
  r.1 = default trace (last r.2) ∧
  value (mh trace model proposal proposal_args observations key 0) = (trace, []).
Proof.
  cbv zeta. rewrite !mh_eq. cbv zeta. cbn [value fst snd].
  split_and!.
  - by rewrite scan_kernel_length, length_jax_random_split.
  - intros i. apply scan_kernel_records.
  - by rewrite scan_kernel_state, length_jax_random_split.
  - apply (scan_kernel_last (trace, model, proposal, proposal_args, observations)).
  - reflexivity.
Qed.

(** *** Dependence on the collaborators *)

(** A step sees the model through [update] and the proposal through
    [propose] and [assess], and does not look at the observations. *)
Lemma mh_move_ext trace m1 m2 p1 p2 proposal_args obs1 obs2 key :
  same_update m1 m2 → Proposal_equiv p1 p2 →
  let r1 := metropolis_hastings_move (trace, m1, p1, proposal_args, obs1) key in
  let r2 := metropolis_hastings_move (trace, m2, p2, proposal_args, obs2) key in
  (value r1).2 = (value r2).2 ∧ events r1 = events r2.
Proof.
  intros Hm [Hp Ha]. cbv zeta. rewrite !mh_move_eq. cbv zeta.
  unfold value, events. cbn [fst snd].
  by rewrite !Hp, !Hm, !Ha.
Qed.

Lemma scan_kernel_ext m1 m2 p1 p2 proposal_args obs1 obs2 keys trace :
  same_update m1 m2 → Proposal_equiv p1 p2 →
  let r1 := lax_scan metropolis_hastings_move (trace, m1, p1, proposal_args, obs1) keys in
  let r2 := lax_scan metropolis_hastings_move (trace, m2, p2, proposal_args, obs2) keys in
  current_trace (value r1).1 = current_trace (value r2).1 ∧
  (value r1).2 = (value r2).2 ∧ events r1 = events r2.
Proof.
  intros Hm Hp. cbv zeta. revert trace.
  induction keys as [|key keys IH]; intros trace; [done|].
  rewrite !lax_scan_cons. cbv zeta.
  destruct (mh_move_ext trace m1 m2 p1 p2 proposal_args obs1 obs2 key Hm Hp)
    as [Hrec Hev].
  destruct (mh_move_value trace m1 p1 proposal_args obs1 key) as [t1 E1].
  destruct (mh_move_value trace m2 p2 proposal_args obs2 key) as [t2 E2].
  rewrite E1, E2 in Hrec. cbn in Hrec. subst t2.
  unfold events in *. rewrite Hev.
  unfold value in *. rewrite E1, E2. cbn [fst snd].
  destruct (IH t1) as (-> & -> & ->). done.
Qed.

Lemma mh_ext m1 m2 p1 p2 trace proposal_args obs1 obs2 key N :
  same_update m1 m2 → Proposal_equiv p1 p2 →
  mh trace m1 p1 proposal_args obs1 key N = mh trace m2 p2 proposal_args obs2 key N.
Proof.
  intros Hm Hp. rewrite !mh_eq. cbv zeta.
  destruct (scan_kernel_ext m1 m2 p1 p2 proposal_args obs1 obs2
              (jax_random_split key N) trace Hm Hp) as (-> & -> & ->).
  done.
Qed.

(** *** Keys come from the root key *)







(** *** The entry point *)

Lemma uses_of_app who (l1 l2 : list Event) :
  uses_of who (l1 ++ l2) = uses_of who l1 ++ uses_of who l2.
Proof. unfold uses_of. apply bind_app. Qed.

Lemma scan_kernel_no_importance carry keys :
  uses_of ByImportance (events (lax_scan metropolis_hastings_move carry keys)) = [].
Proof.
  revert carry. induction keys as [|key keys IH]; intros carry; [done|].
  rewrite lax_scan_cons. cbv zeta. unfold events at 1. cbn [snd].
  rewrite uses_of_app, IH, app_nil_r.
  destruct carry as [[[[trace model] proposal] proposal_args] observations].
  by rewrite mh_move_eq.
Qed.

Lemma run_inference_eq model model_args obs key num_samples :
  run_inference model model_args obs key num_samples =
    let subkey1 := random_split_at key 3 1 in
    let subkey2 := random_split_at key 3 2 in
    let tr := (importance model subkey1 obs model_args).1 in
    let r := mh tr model prop [] obs subkey2 num_samples in
    (value r, EvSplit key 3 :: EvUse ByImportance subkey1 :: events r).
Proof.
  unfold run_inference, custom_mh, split3, call_importance, tell.
  unfold mbind, Logged_bind, mret, Logged_ret, value, events. cbn -[mh].
  destruct (importance _ _ _ _) as [tr iw]. cbn -[mh].
  destruct (mh _ _ _ _ _ _ _) as [[t chain] log]. cbn.
  by rewrite app_nil_r.
Qed.

(** C9.  [run_inference] calls the model's importance sampler once, on the
    observations and the model arguments, and the trace it returns is the
    initial trace of the driver loop, which runs [num_samples] steps with
    the proposal [prop]: with no step that trace is returned as it is. *)
Theorem run_inference_initial_trace model model_args obs key num_samples :
  let subkey1 := random_split_at key 3 1 in
  let subkey2 := random_split_at key 3 2 in
  let tr := (importance model subkey1 obs model_args).1 in
  value (run_inference model model_args obs key num_samples)
    = value (mh tr model prop [] obs subkey2 num_samples) ∧
  uses_of ByImportance (events (run_inference model model_args obs key num_samples))
    = [subkey1] ∧
  value (run_inference model model_args obs key 0) = (tr, []).
Proof.
  cbv zeta. rewrite !run_inference_eq. cbv zeta. split_and!; [done| |done].
  unfold events at 1. cbn [snd]. rewrite mh_eq. cbv zeta.
  unfold events at 1. cbn [snd].
  match goal with
  | |- uses_of _ (?a :: ?b :: ?c :: ?log) = _ =>
      change (a :: b :: c :: log) with ([a; b; c] ++ log)
  end.
  by rewrite uses_of_app, scan_kernel_no_importance.
Qed.

(** C10.  Two models with the same update whose importance samplers return
    the same traces, with whatever weights, give the same final trace, the
    same chain and the same key events: the importance weight is dropped. *)
Theorem run_inference_drops_importance_weight m1 m2 model_args obs key num_samples :
  same_update m1 m2 →
  (∀ key obs args, (importance m1 key obs args).1 = (importance m2 key obs args).1) →
  run_inference m1 model_args obs key num_samples
    = run_inference m2 model_args obs key num_samples.
Proof.
  intros Hm Hi. rewrite !run_inference_eq. cbv zeta. rewrite Hi.
  by rewrite (mh_ext m1 m2 prop prop _ [] obs obs _ num_samples Hm).
Qed.

(** *** Observed addresses *)

Lemma prop_edits_a trace proposal_args key addr :
  addr ≠ "a" → (propose prop key (trace, proposal_args)).1.1 !! addr = None.
Proof. intros Hne. cbn. by apply lookup_singleton_ne. Qed.

Lemma observed_kept_by_step trace model proposal proposal_args observations key :
  update_frames model →
  (∀ addr, is_Some (observations !! addr) →
     (propose proposal (random_split_at key 2 0) (trace, proposal_args)).1.1 !! addr
       = None) →
  observed_unchanged observations trace
    (value (metropolis_hastings_move
              (trace, model, proposal, proposal_args, observations) key)).2.
Proof.
  intros Hframe Hedits addr Hobs. rewrite mh_move_eq. cbv zeta.
  unfold value. cbn [fst snd].
  destruct (F32.ltb _ _); [|done].
  by apply Hframe, Hedits.
Qed.

(** C3, as the code has it.  When the model's update leaves the addresses
    outside the edit as they were, and the choices proposed at this step
    name no observed address, every observed address reads the same in the
    current trace before the step and in the trace after it. *)
Theorem mh_move_keeps_observed trace model proposal proposal_args observations key :
  update_frames model →
  (∀ addr, is_Some (observations !! addr) →
     (propose proposal (random_split_at key 2 0) (trace, proposal_args)).1.1 !! addr
       = None) →
  observed_unchanged observations trace
    (value (metropolis_hastings_move
              (trace, model, proposal, proposal_args, observations) key)).2.
Proof. apply observed_kept_by_step. Qed.

(** The same along a whole chain of [custom_mh], whose proposal [prop] edits
    ["a"] only: when ["a"] is not observed, every record agrees with the
    initial trace on the observed addresses. *)
Lemma custom_mh_keeps_observed trace model observations key num_updates t :
  update_frames model → observations !! "a" = None →
  t ∈ (value (custom_mh trace model observations key num_updates)).2 →
  observed_unchanged observations trace t.
Proof.
  intros Hframe Ha. unfold custom_mh. rewrite mh_eq. cbv zeta.
  unfold value at 1. cbn [fst snd].
  generalize (jax_random_split key num_updates) as keys. intros keys. revert trace.
  induction keys as [|k keys IH]; intros trace Ht; [by apply elem_of_nil in Ht|].
  rewrite lax_scan_cons in Ht. cbv zeta in Ht. unfold value at 1 in Ht. cbn [fst snd] in Ht.
  assert (observed_unchanged observations trace
            (value (metropolis_hastings_move (trace, model, prop, [], observations) k)).2)
    as Hstep.
  { apply observed_kept_by_step; [done|].
    intros addr Hobs. apply prop_edits_a. intros ->. rewrite Ha in Hobs.
    by destruct Hobs. }
  destruct (mh_move_value trace model prop [] observations k) as [ret_fun E].
  rewrite E in Ht, Hstep. cbn [fst snd] in Ht, Hstep.
  apply elem_of_cons in Ht as [->|Ht]; [done|].
  intros addr Hobs. rewrite (IH ret_fun Ht addr Hobs). by apply Hstep.
Qed.

End Driver.

(** ** Further properties of the chain *)

Section Chain.
Context `{Jax}.
Implicit Types (trace : Trace) (model : Model) (proposal : Proposal).
Implicit Types (proposal_args : Args) (observations : ChoiceMap) (key : Key).
Implicit Types (P : Trace → Prop).

(** A step returns the current trace or the trace of the model's update on
    the proposed choices, at unchanged arguments. *)
Lemma mh_move_record_cases trace model proposal proposal_args observations key :
  let record :=
    (value (metropolis_hastings_move
              (trace, model, proposal, proposal_args, observations) key)).2 in
  record = trace ∨
  record =
    (update model (random_split_at key 2 1) trace
       (propose proposal (random_split_at key 2 0) (trace, proposal_args)).1.1
       (Diff_no_change (get_args trace))).1.1.1.
Proof.
  cbv zeta. rewrite mh_move_eq. cbv zeta. unfold value. cbn [fst snd].
  destruct (F32.ltb _ _); auto.
Qed.

Lemma scan_kernel_invariant P model proposal proposal_args observations keys trace :
  (∀ key key' tr, P tr →
     P (update model key tr (propose proposal key' (tr, proposal_args)).1.1
          (Diff_no_change (get_args tr))).1.1.1) →
  P trace →
  let r := value (lax_scan metropolis_hastings_move
                    (trace, model, proposal, proposal_args, observations) keys) in
  P (current_trace r.1) ∧ Forall P r.2.
Proof.
  intros Hupd. cbv zeta. revert trace.
  induction keys as [|key keys IH]; intros trace Htrace; [by split|].
  rewrite lax_scan_cons. cbv zeta. unfold value at 1 4. cbn [fst snd].
  destruct (mh_move_value trace model proposal proposal_args observations key)
    as [ret_fun E].
  assert (P ret_fun) as Hret.
  { pose proof (mh_move_record_cases trace model proposal proposal_args
                  observations key) as Hcases.
    cbv zeta in Hcases. rewrite E in Hcases. cbn [snd] in Hcases.
    destruct Hcases as [->| ->]; [done|]. by apply Hupd. }
  rewrite E. cbn [fst snd]. destruct (IH ret_fun Hret) as [Hlast Hall].
  split; [done|]. by apply Forall_cons_2.
Qed.

(** X1.  Invariants of the chain.  A property of traces that holds of the
    initial trace, and that the model's update keeps whenever it is applied
    to choices the proposal proposed, with no change of the arguments, holds
    of every record of [mh] and of the trace it returns. *)
Theorem mh_invariant P trace model proposal proposal_args observations key N :
  (∀ key key' tr, P tr →
     P (update model key tr (propose proposal key' (tr, proposal_args)).1.1
          (Diff_no_change (get_args tr))).1.1.1) →
  P trace →
  let r := value (mh trace model proposal proposal_args observations key N) in
  P r.1 ∧ Forall P r.2.
Proof.
  intros Hupd Htrace. cbv zeta. rewrite mh_eq. cbv zeta.
  unfold value at 1 3. cbn [fst snd].
  by apply scan_kernel_invariant.
Qed.

Lemma custom_mh_frame trace model observations key N :
  update_frames model → update_writes model →
  is_Some (get_choices trace !! "a") →
  let r := value (custom_mh trace model observations key N) in
  Forall (λ t, is_Some (get_choices t !! "a") ∧
               ∀ addr, addr ≠ "a" → get_choices t !! addr = get_choices trace !! addr)
    (r.1 :: r.2).
Proof.
  intros Hframe Hwrite Ha. cbv zeta. unfold custom_mh. rewrite mh_eq. cbv zeta.
  unfold value at 1 3. cbn [fst snd].
  apply Forall_cons.
  apply (scan_kernel_invariant
           (λ t, is_Some (get_choices t !! "a") ∧
                 ∀ addr, addr ≠ "a" → get_choices t !! addr = get_choices trace !! addr));
    [|done].
  intros k k' tr [_ Htr]. split.
  - eexists. apply Hwrite. cbn. apply lookup_singleton_eq.
  - intros addr Hne. rewrite <- (Htr addr Hne). apply Hframe. by apply prop_edits_a.
Qed.

(** X2.  [custom_mh] moves ["a"] only.  With a model whose update writes
    the edit into the new trace and leaves the addresses outside the edit
    as they were, and an initial trace that has the address ["a"]: every
    record of the chain and the returned trace have ["a"], so that the
    lookup of the proposal is always defined, and read as the initial trace
    at every other address. *)
Theorem custom_mh_only_moves_a trace model observations key N :
  update_frames model → update_writes model →
  is_Some (get_choices trace !! "a") →
  let r := value (custom_mh trace model observations key N) in
  Forall (λ t, is_Some (get_choices t !! "a") ∧
               ∀ addr, addr ≠ "a" → get_choices t !! addr = get_choices trace !! addr)
    (r.1 :: r.2).
Proof. apply custom_mh_frame. Qed.

(** X3.  The samples of [run_inference] satisfy the observations.  When the
    model's importance sampler returns a trace that holds the observed
    values and has the address ["a"], its update writes the edit and leaves
    the addresses outside the edit as they were, and ["a"] is not observed,
    every record of the chain and the returned trace hold the observed
    value at every observed address. *)
Theorem run_inference_satisfies_obs model model_args obs key num_samples :
  update_frames model → update_writes model →
  (∀ key', satisfies obs (importance model key' obs model_args).1) →
  (∀ key', is_Some (get_choices (importance model key' obs model_args).1 !! "a")) →
  obs !! "a" = None →
  let r := value (run_inference model model_args obs key num_samples) in
  Forall (satisfies obs) (r.1 :: r.2).
Proof.
  intros Hframe Hwrite Himp Hhas Ha. cbv zeta. rewrite run_inference_eq. cbv zeta.
  unfold value at 1 3. cbn [fst snd].
  eapply Forall_impl;
    [apply (custom_mh_frame _ model obs (random_split_at key 3 2) num_samples
              Hframe Hwrite (Hhas _))|].
  intros t [_ Ht] addr v Hobs. rewrite Ht.
  - by apply Himp.
  - intros ->. congruence.
Qed.

Lemma same_update_refl model : same_update model model.
Proof. by intros key trace edits argdiffs. Qed.

Lemma Proposal_equiv_same proposal : Proposal_equiv proposal proposal.
Proof. by split. Qed.

(** X4.  The chain does not depend on the observations handed to the
    driver: [mh] returns the same final trace and the same records, and
    makes the same key events, whatever its [observations] argument. *)
Theorem mh_ignores_observations trace model proposal proposal_args
    observations observations' key N :
  mh trace model proposal proposal_args observations key N
    = mh trace model proposal proposal_args observations' key N.
Proof. apply mh_ext; [apply same_update_refl | apply Proposal_equiv_same]. Qed.

(** *** Sampler calls and their keys *)

Lemma consumed_keys_app (l1 l2 : list Event) :
  consumed_keys (l1 ++ l2) = consumed_keys l1 ++ consumed_keys l2.
Proof. unfold consumed_keys. apply bind_app. Qed.

Lemma mh_move_consumed_keys (mh_args : MHArgs) key :
  consumed_keys (events (metropolis_hastings_move mh_args key)) = step_consumers key.
Proof.
  destruct mh_args as [[[[trace model] proposal] proposal_args] observations].
  by rewrite mh_move_eq.
Qed.

Lemma scan_kernel_consumed_keys (carry : MHArgs) (keys : list Key) :
  consumed_keys (events (lax_scan metropolis_hastings_move carry keys))
    = keys ≫= step_consumers.
Proof.
  revert carry. induction keys as [|key keys IH]; intros carry; [done|].
  rewrite lax_scan_cons. cbv zeta. unfold events at 1. cbn [snd].
  by rewrite consumed_keys_app, mh_move_consumed_keys, IH.
Qed.

Lemma length_bind_step_consumers (keys : list Key) :
  length (keys ≫= step_consumers) = 3 * length keys.
Proof.
  induction keys as [|key keys IH]; [done|].
  rewrite bind_cons, length_app, IH. cbn. lia.
Qed.

(** X5.  The sampler calls of the driver.  Over [N] steps [mh] calls, for
    each step key [k] of [jax.random.split(key, N)] in turn, the proposal
    with the first half of [k], the model update with the second half, and
    the uniform sampler with the second half of the re-split first half:
    [3 * N] calls, and no other. *)
Theorem mh_consumed_keys trace model proposal proposal_args observations key N :
  let log := events (mh trace model proposal proposal_args observations key N) in
  consumed_keys log = jax_random_split key N ≫= step_consumers ∧
  length (consumed_keys log) = 3 * N.
Proof.
  cbv zeta. rewrite mh_eq. cbv zeta. unfold events at 1 3. cbn [snd].
  change (EvSplit key N :: ?l) with ([EvSplit key N] ++ l).
  rewrite consumed_keys_app, scan_kernel_consumed_keys. cbn [consumed_keys mbind list_bind app].
  split; [done|].
  by rewrite length_bind_step_consumers, length_jax_random_split.
Qed.




(** *** The drift proposal *)


(** X8.  A step of the drift kernel.  Let the current trace hold [old_a] at
    ["a"] and let [new_a] be the normal draw around [old_a] made with the
    first half of the step key.  When the model's update puts [new_a] at
    ["a"] and discards [old_a], the forward weight is the density of
    [new_a] around [old_a], the backward weight the density of [old_a]
    around [new_a], and the candidate is returned exactly when
    [ln u < (w - forward) + backward]. *)
Theorem mh_move_prop_weights trace model proposal_args observations key
    old_a new_trace w retdiff discard :
  let key1 := random_split_at key 2 0 in
  let subkey1 := random_split_at key 2 1 in
  let u := random_uniform (random_split_at key1 2 1) in
  let new_a := normal_sample key1 old_a F32.one in
  get_choices trace !! "a" = Some old_a →
  update model subkey1 trace {[ "a" := new_a ]} (Diff_no_change (get_args trace))
    = (new_trace, w, retdiff, discard) →
  get_choices new_trace !! "a" = Some new_a →
  discard !! "a" = Some old_a →
  (value (metropolis_hastings_move
            (trace, model, prop, proposal_args, observations) key)).2
    = if F32.ltb (jnp_log u)
           (F32.add (F32.sub w (normal_logpdf new_a old_a F32.one))
              (normal_logpdf old_a new_a F32.one))
      then new_trace else trace.
Proof.
  intros key1 subkey1 u new_a Hold Hupd Hnew Hdiscard.
  assert (chm_get (get_choices trace) "a" = old_a) as Eold
    by (unfold chm_get; by rewrite Hold).
  assert (chm_get (get_choices new_trace) "a" = new_a) as Enew
    by (unfold chm_get; by rewrite Hnew).
  assert (chm_get discard "a" = old_a) as Edis
    by (unfold chm_get; by rewrite Hdiscard).
  rewrite mh_move_eq. cbv zeta. fold key1 subkey1. unfold value. cbn [fst snd].
  cbn [propose prop fst snd]. rewrite !Eold. fold new_a. rewrite Hupd.
  cbn [assess prop fst snd]. by rewrite Enew, Edis.
Qed.

(** *** Degenerate weights *)

Lemma ltb_neg_inf_or_nan x α :
  α = F32.neg_inf ∨ α = F32.nan → F32.ltb x α = false.
Proof. intros [-> | ->]; destruct x as [s|s| |s m e]; try done; by destruct s. Qed.

Lemma degenerate_ratio w fw bw :
  degenerate w fw bw →
  F32.add (F32.sub w fw) bw = F32.neg_inf ∨ F32.add (F32.sub w fw) bw = F32.nan.
Proof.
  unfold degenerate, F32.add, F32.sub, F32.neg_inf, F32.pos_inf, F32.nan.
  intros [-> | [-> | [-> | [-> | [-> | ->]]]]].
  - destruct fw as [s|s| |s m e], bw as [s'|s'| |s' m' e'];
      try destruct s; try destruct s'; cbn; auto.
  - destruct w as [s|s| |s m e], bw as [s'|s'| |s' m' e'];
      try destruct s; try destruct s'; cbn; auto.
  - destruct (SFsub _ _ w fw) as [s|s| |s m e]; try destruct s; cbn; auto.
  - destruct fw as [s|s| |s m e], bw as [s'|s'| |s' m' e']; cbn; auto.
  - destruct w as [s|s| |s m e], bw as [s'|s'| |s' m' e']; cbn; auto.
  - destruct (SFsub _ _ w fw) as [s|s| |s m e]; cbn; auto.
Qed.

Lemma mh_move_degenerate trace model proposal proposal_args observations key :
  let fwd := propose proposal (random_split_at key 2 0) (trace, proposal_args) in
  let upd := update model (random_split_at key 2 1) trace fwd.1.1
               (Diff_no_change (get_args trace)) in
  let bwd := assess proposal upd.2 (upd.1.1.1, proposal_args) in
  degenerate upd.1.1.2 fwd.1.2 bwd.1 →
  value (metropolis_hastings_move
           (trace, model, proposal, proposal_args, observations) key)
    = ((trace, model, proposal, proposal_args, observations), trace).
Proof.
  cbv zeta. intros Hdeg. rewrite mh_move_eq. cbv zeta. unfold value. cbn [fst].
  by rewrite (ltb_neg_inf_or_nan _ _ (degenerate_ratio _ _ _ Hdeg)).
Qed.

(** X9.  Moves that cannot be accepted.  When the model weight of the
    candidate is minus infinity, or its forward weight plus infinity, or
    its backward weight minus infinity, or one of the three is not a
    number, the acceptance log-ratio is minus infinity or not a number, and
    the step keeps the current trace whatever the uniform draw. *)
Theorem mh_move_rejects_degenerate trace model proposal proposal_args observations key
    fwd_choices fw retval new_trace w retdiff discard bw retval' :
  let key1 := random_split_at key 2 0 in
  let subkey1 := random_split_at key 2 1 in
  propose proposal key1 (trace, proposal_args) = (fwd_choices, fw, retval) →
  update model subkey1 trace fwd_choices (Diff_no_change (get_args trace))
    = (new_trace, w, retdiff, discard) →
  assess proposal discard (new_trace, proposal_args) = (bw, retval') →
  degenerate w fw bw →
  (value (metropolis_hastings_move
            (trace, model, proposal, proposal_args, observations) key)).2
    = trace.
Proof.
  intros key1 subkey1 Hp Hu Ha Hdeg. rewrite mh_move_degenerate; [done|].
  cbv zeta. fold key1 subkey1. rewrite Hp. cbn [fst snd]. rewrite Hu. cbn [fst snd].
  by rewrite Ha.
Qed.

Lemma scan_kernel_stuck trace model proposal proposal_args observations keys :
  (∀ key tr edits argdiffs, (update model key tr edits argdiffs).1.1.2 = F32.neg_inf) →
  value (lax_scan metropolis_hastings_move
           (trace, model, proposal, proposal_args, observations) keys)
    = ((trace, model, proposal, proposal_args, observations),
       replicate (length keys) trace).
Proof.
  intros Hinf. induction keys as [|k keys IH]; [done|].
  rewrite lax_scan_cons. cbv zeta.
  rewrite mh_move_degenerate; [|cbv zeta; left; apply Hinf].
  cbn [fst snd]. unfold value at 1. cbn [fst]. by rewrite IH.
Qed.

(** X10.  A chain that cannot move.  With a model whose update always
    returns the weight minus infinity, every step keeps the current trace:
    [mh] returns the initial trace and [N] copies of it. *)
Theorem mh_stuck_chain trace model proposal proposal_args observations key N :
  (∀ key tr edits argdiffs, (update model key tr edits argdiffs).1.1.2 = F32.neg_inf) →
  value (mh trace model proposal proposal_args observations key N)
    = (trace, replicate N trace).
Proof.
  intros Hinf. rewrite mh_eq. cbv zeta. unfold value at 1. cbn [fst].
  by rewrite scan_kernel_stuck, length_jax_random_split.
Qed.

End Chain.

(** ** The statements at concrete inputs

    All of them with the library [Stub.lib], the initial trace
    [Stub.trace0] (["a"] at 1, ["b"] at 0, ["y"] at 4) and the root key 0. *)

Section Concrete.
#[local] Existing Instance Stub.lib.

Lemma stub_model_update_frames w iw : update_frames (Stub.model w iw).
Proof. intros key trace edits argdiffs addr Hnone. cbn. by apply lookup_union_r. Qed.

Lemma stub_models_same_update w iw iw' :
  same_update (Stub.model w iw) (Stub.model w iw').
Proof. intros key trace edits argdiffs. reflexivity. Qed.


(** One step with the notebook's proposal: ["a"] moves from 1 to 2, the
    forward and backward weights agree, so the ratio is the model weight 0
    and [ln 0.5 < 0] accepts. *)
Example mh_move_prop_accepts :
  get_choices
    (value (metropolis_hastings_move
              (Stub.trace0, Stub.model F32.zero F32.zero, prop, [], obs)
              (Stub.Root 0))).2
  = {[ "a" := F32.two; "b" := F32.zero; "y" := F32.four ]}.
Proof. vm_compute. reflexivity. Qed.

(** The same step with the model weight -1: [ln 0.5 = -0.693] is not below
    -1 and the current trace is kept. *)
Example mh_move_prop_rejects :
  (value (metropolis_hastings_move
            (Stub.trace0, Stub.model (SFopp F32.one) F32.zero, prop, [], obs)
            (Stub.Root 0))).2
  = Stub.trace0.
Proof. vm_compute. reflexivity. Qed.

(** Three steps from [run_inference]: ["a"] drifts 2, 3, 4 and ["y"] stays
    at the observed 4. *)
Example run_inference_chain :
  map (λ t, (get_choices t !! "a", get_choices t !! "y"))
    (value (run_inference (Stub.model F32.zero F32.zero) model_args obs (Stub.Root 0) 3)).2
  = [(Some F32.two, Some F32.four);
     (Some (F32.scaled 3 0), Some F32.four);
     (Some F32.four, Some F32.four)].
Proof. vm_compute. reflexivity. Qed.




(** With [obs = C["y"].set(4.0)] the proposal [prop] moves ["a"] and the
    step leaves ["y"] at 4. *)
Lemma mh_move_keeps_observed_witness :
  observed_unchanged obs Stub.trace0
    (value (metropolis_hastings_move
              (Stub.trace0, Stub.model F32.zero F32.zero, prop, [], obs)
              (Stub.Root 0))).2.
Proof.
  apply mh_move_keeps_observed.
  - apply stub_model_update_frames.
  - intros addr Hobs. apply prop_edits_a. intros ->. by destruct Hobs.
Defined.

(** Without the side condition an observed address can move: observe ["a"]
    instead of ["y"].  The current trace has ["a"] at 1, as observed;
    [prop] proposes 2, the move is accepted (both proposal weights agree,
    [ln 0.5 < 0]) and the observed address reads 2 after the step. *)
Lemma mh_move_alters_observed_counterexample :
  let observations : ChoiceMap := {[ "a" := F32.one ]} in
  let after :=
    (value (metropolis_hastings_move
              (Stub.trace0, Stub.model F32.zero F32.zero, prop, [], observations)
              (Stub.Root 0))).2 in
  get_choices Stub.trace0 !! "a" = Some F32.one ∧
  get_choices after !! "a" = Some F32.two ∧
  ¬ observed_unchanged observations Stub.trace0 after.
Proof.
  intros observations after.
  assert (get_choices after !! "a" = Some F32.two) as Hafter by (vm_compute; reflexivity).
  split_and!; [reflexivity | exact Hafter |].
  intros Hobs. specialize (Hobs "a" (ex_intro _ F32.one eq_refl)).
  rewrite Hafter in Hobs. vm_compute in Hobs. discriminate Hobs.
Qed.


(** Two initialisations with the same trace and the weights 0 and 1. *)
Lemma run_inference_drops_importance_weight_witness :
  (importance (Stub.model F32.zero F32.zero) (Stub.Root 0) obs model_args).2
    ≠ (importance (Stub.model F32.zero F32.one) (Stub.Root 0) obs model_args).2 ∧
  run_inference (Stub.model F32.zero F32.zero) model_args obs (Stub.Root 0) 3
    = run_inference (Stub.model F32.zero F32.one) model_args obs (Stub.Root 0) 3.
Proof.
  split; [discriminate|].
  apply run_inference_drops_importance_weight.
  - apply stub_models_same_update.
  - intros key obs args. reflexivity.
Defined.

End Concrete.

(** ** The further properties at concrete inputs *)

Section ChainConcrete.
#[local] Existing Instance Stub.lib.


Lemma stub_importance_satisfies w iw key args (observations : ChoiceMap) :
  satisfies observations (importance (Stub.model w iw) key observations args).1.
Proof. intros addr v Hobs. cbn. by apply lookup_union_Some_l. Qed.

Lemma stub_model_update_writes w iw : update_writes (Stub.model w iw).
Proof.
  intros key trace edits argdiffs addr v Hedit. cbn. by apply lookup_union_Some_l.
Qed.


(** The model arguments stay [(5.0,)] along three steps. *)
Lemma mh_invariant_witness :
  let r := value (mh Stub.trace0 (Stub.model F32.zero F32.zero) prop [] obs
                    (Stub.Root 0) 3) in
  get_args r.1 = model_args ∧ Forall (λ t, get_args t = model_args) r.2.
Proof.
  apply (mh_invariant (H:=Stub.lib) (λ t, get_args t = model_args)).
  - intros key key' tr Htr. exact Htr.
  - reflexivity.
Defined.

(** Three steps of the drift kernel leave ["b"] and ["y"] alone. *)
Lemma custom_mh_only_moves_a_witness :
  let r := value (custom_mh Stub.trace0 (Stub.model F32.zero F32.zero) obs
                    (Stub.Root 0) 3) in
  Forall (λ t, is_Some (get_choices t !! "a") ∧
               ∀ addr, addr ≠ "a" →
                       get_choices t !! addr = get_choices Stub.trace0 !! addr)
    (r.1 :: r.2).
Proof.
  apply (custom_mh_only_moves_a (H:=Stub.lib)).
  - apply stub_model_update_frames.
  - apply stub_model_update_writes.
  - by eexists.
Defined.

(** Every sample of three steps under [obs] has ["y"] at 4. *)
Lemma run_inference_satisfies_obs_witness :
  let r := value (run_inference (Stub.model F32.zero F32.zero) model_args obs
                    (Stub.Root 0) 3) in
  Forall (satisfies obs) (r.1 :: r.2).
Proof.
  apply (run_inference_satisfies_obs (H:=Stub.lib)).
  - apply stub_model_update_frames.
  - apply stub_model_update_writes.
  - intros key'. apply stub_importance_satisfies.
  - intros key'. by eexists.
  - reflexivity.
Defined.


(** The drift from 1 to 2: both densities are the standard normal density
    at distance 1, the ratio is 0 and [ln 0.5 < 0] accepts. *)
Lemma mh_move_prop_weights_witness :
  normal_logpdf F32.two F32.one F32.one = normal_logpdf F32.one F32.two F32.one ∧
  get_choices
    (value (metropolis_hastings_move
              (Stub.trace0, Stub.model F32.zero F32.zero, prop, [], obs)
              (Stub.Root 0))).2 !! "a" = Some F32.two.
Proof.
  split; [reflexivity|].
  rewrite (mh_move_prop_weights (H:=Stub.lib) Stub.trace0
             (Stub.model F32.zero F32.zero) [] obs (Stub.Root 0) F32.one
             _ _ _ _ eq_refl eq_refl eq_refl eq_refl).
  reflexivity.
Defined.

(** A candidate of model weight minus infinity is not accepted. *)
Lemma mh_move_rejects_degenerate_witness :
  (value (metropolis_hastings_move
            (Stub.trace0, Stub.model F32.neg_inf F32.zero,
             Stub.proposal {[ "a" := F32.two ]} F32.half F32.quarter, [], obs)
            (Stub.Root 0))).2 = Stub.trace0.
Proof.
  apply (mh_move_rejects_degenerate (H:=Stub.lib) Stub.trace0
           (Stub.model F32.neg_inf F32.zero)
           (Stub.proposal {[ "a" := F32.two ]} F32.half F32.quarter)
           [] obs (Stub.Root 0) _ _ _ _ _ _ _ _ _ eq_refl eq_refl eq_refl).
  left. reflexivity.
Defined.

(** Three steps under a model of weight minus infinity. *)
Lemma mh_stuck_chain_witness :
  value (mh Stub.trace0 (Stub.model F32.neg_inf F32.zero) prop [] obs (Stub.Root 0) 3)
    = (Stub.trace0, [Stub.trace0; Stub.trace0; Stub.trace0]).
Proof.
  apply (mh_stuck_chain (H:=Stub.lib) Stub.trace0 (Stub.model F32.neg_inf F32.zero)
           prop [] obs (Stub.Root 0) 3).
  intros key tr edits argdiffs. reflexivity.
Defined.

End ChainConcrete.
